(** * Axis resolution and shape collapsing of the DirectML scan kernels

    A shallow embedding of [tensorflow/core/kernels/dml_scan_ops.cc]:
    the [ScanInitHelper] constructor (axis validation and normalisation)
    and the part of the [DmlScanKernel] constructor that collapses an
    arbitrary-rank shape to the four-dimensional shape handed to DirectML,
    followed by the properties of the specification checked against them. *)

From Stdlib Require Import ZArith List Lia Bool Permutation.
From Stdlib Require String.
Import ListNotations String.StringSyntax.

Local Open Scope string_scope.
Local Open Scope Z_scope.

(** ** Machine integers

    C++ [int] and [int32] are 32-bit, [int64] is 64-bit, all signed.  A value
    is a [Z]; storing the mathematical result of an operation into a [w]-bit
    signed variable keeps its representative in [[-2^(w-1), 2^(w-1))]. *)

Module MachineInt.

Definition swrap (width z : Z) : Z :=
  (z + 2 ^ (width - 1)) mod 2 ^ width - 2 ^ (width - 1).

Definition to_int (z : Z) : Z := swrap 32 z.
Definition to_int64 (z : Z) : Z := swrap 64 z.

Definition INT_MIN : Z := - 2 ^ 31.
Definition INT_MAX : Z := 2 ^ 31 - 1.

Definition fits_int (z : Z) : Prop := INT_MIN <= z <= INT_MAX.

End MachineInt.
Export MachineInt.

(** The two instantiations of the index type [Tidx] that are registered. *)
Inductive Tidx : Set := int32 | int64.

Definition Tidx_width (T : Tidx) : Z :=
  match T with int32 => 32 | int64 => 64 end.

Definition Tidx_range (T : Tidx) (a : Z) : Prop :=
  - 2 ^ (Tidx_width T - 1) <= a < 2 ^ (Tidx_width T - 1).

(** ** Shapes and tensors *)

Definition TensorShape : Type := list Z.

(** [TensorShape::dims()], a C [int]. *)
Definition dims (s : TensorShape) : Z := Z.of_nat (length s).

Record Tensor : Type := mkTensor {
  shape : TensorShape;
  flat : list Z
}.

Definition scalar_tensor (v : Z) : Tensor := {| shape := []; flat := [v] |}.

(** Modelled from the spec: [TensorShapeUtils::IsScalar] is declared in the
    framework headers, not in this file; the spec calls a scalar a "rank-0"
    container. *)
Definition IsScalar (s : TensorShape) : bool :=
  match s with [] => true | _ :: _ => false end.

(** Modelled from the spec: [FastBoundsCheck] comes from
    [framework/bounds_check.h]; the spec (and the error message built at the
    call site) say that it accepts exactly the indices in [[0, limit)]. *)
Definition FastBoundsCheck (index limit : Z) : bool :=
  (0 <=? index) && (index <? limit).

(** ** Statuses and outcomes *)

Inductive Code : Set := OK | INVALID_ARGUMENT | OUT_OF_RANGE.

(** The arguments an error constructor concatenates into its message. *)
Inductive MsgArg : Type :=
| Text (s : String.string)
| Num (z : Z)
| DebugString (s : TensorShape).

Record Status : Type := mkStatus {
  code : Code;
  error_message : list MsgArg
}.

Module errors.
Definition InvalidArgument (args : list MsgArg) : Status :=
  {| code := INVALID_ARGUMENT; error_message := args |}.
End errors.

(** What running a constructor can lead to: it completes, an [OP_REQUIRES]
    records a failure on the context and returns, a framework [CHECK] fires,
    or (in the model only) a loop is given too little fuel. *)
Inductive Outcome (A : Type) : Type :=
| Ok (a : A)
| CtxFailure (s : Status)
| CheckFailed
| OutOfFuel.

Arguments Ok {A} a.
Arguments CtxFailure {A} s.
Arguments CheckFailed {A}.
Arguments OutOfFuel {A}.

Definition bind {A B : Type} (m : Outcome A) (k : A -> Outcome B) : Outcome B :=
  match m with
  | Ok a => k a
  | CtxFailure s => CtxFailure s
  | CheckFailed => CheckFailed
  | OutOfFuel => OutOfFuel
  end.

Notation "x <- m ;; k" := (bind m (fun x => k))
  (at level 61, m at next level, right associativity).
Notation "m ;;; k" := (bind m (fun _ => k))
  (at level 61, right associativity).

Definition OP_REQUIRES (cond : bool) (st : Status) : Outcome unit :=
  if cond then Ok tt else CtxFailure st.

(** [Tensor::scalar<T>()()]: the single element of a rank-0 tensor. *)
Definition scalar (t : Tensor) : Outcome Z :=
  match shape t, flat t with
  | [], [v] => Ok v
  | _, _ => CheckFailed
  end.

(** ** ScanInitHelper *)

Module ScanInitHelper.

Record Attributes : Set := mkAttributes {
  reverse : bool;
  exclusive : bool
}.

Record t : Set := mk {
  attr_ : Attributes;
  axis_ : Z
}.

(** [(axis_arg < 0) ? input.dims() + axis_arg : axis_arg], computed at the
    width of [Tidx] and then stored in the 64-bit field. *)
Definition resolve (T : Tidx) (input_dims axis_arg : Z) : Z :=
  if axis_arg <? 0
  then swrap (Tidx_width T) (input_dims + axis_arg)
  else axis_arg.

Definition ctor (T : Tidx) (input tensor_axis : Tensor) (attr : Attributes)
  : Outcome t :=
  OP_REQUIRES (IsScalar (shape tensor_axis))
    (errors.InvalidArgument
       [Text "ScanOp: axis must be a scalar, not ";
        DebugString (shape tensor_axis)]) ;;;
  axis_arg <- scalar tensor_axis ;;
  let axis_ := resolve T (dims (shape input)) axis_arg in
  OP_REQUIRES (FastBoundsCheck axis_ (dims (shape input)))
    (errors.InvalidArgument
       [Text "ScanOp: Expected scan axis in the range [";
        Num (to_int (- dims (shape input)));
        Text ", ";
        Num (dims (shape input));
        Text "), but got ";
        Num axis_]) ;;;
  Ok {| attr_ := attr; axis_ := axis_ |}.

Definition IsReverse (h : t) : bool := reverse (attr_ h).
Definition IsExclusive (h : t) : bool := exclusive (attr_ h).
Definition GetAxis (h : t) : Z := axis_ h.

End ScanInitHelper.

(** ** Reading dimensions

    The kernel reads the input shape only through [dim_size].  To speak about
    which dimensions a run touches, a computation of the kernel carries, next
    to its outcome, the list of the indices it passed to [dim_size], in
    order. *)

Record Traced (A : Type) : Type := mkTraced {
  result : Outcome A;
  accessed : list Z
}.

Arguments mkTraced {A} result accessed.
Arguments result {A} _.
Arguments accessed {A} _.

Definition tret {A : Type} (a : A) : Traced A := mkTraced (Ok a) [].

Definition tbind {A B : Type} (m : Traced A) (k : A -> Traced B) : Traced B :=
  match result m with
  | Ok a => mkTraced (result (k a)) (accessed m ++ accessed (k a))
  | CtxFailure st => mkTraced (CtxFailure st) (accessed m)
  | CheckFailed => mkTraced CheckFailed (accessed m)
  | OutOfFuel => mkTraced OutOfFuel (accessed m)
  end.

Notation "x <~ m ;; k" := (tbind m (fun x => k))
  (at level 61, m at next level, right associativity).

(** [TensorShape::dim_size(i)]; the framework asserts [0 <= i < dims()]. *)
Definition dim_size (s : TensorShape) (i : Z) : Traced Z :=
  mkTraced
    (if i <? 0 then CheckFailed
     else match nth_error s (Z.to_nat i) with
          | Some d => Ok d
          | None => CheckFailed
          end)
    [i].

(** [for (int i = start; cond(i); ++i) acc = body(i, acc);] with the counter
    a C [int].  [fuel] bounds the number of times the condition is tested. *)
Fixpoint for_int (fuel : nat) (cond : Z -> bool) (body : Z -> Z -> Traced Z)
  (i acc : Z) : Traced Z :=
  match fuel with
  | O => mkTraced OutOfFuel []
  | S fuel' =>
      if cond i
      then acc' <~ body i acc ;; for_int fuel' cond body (to_int (i + 1)) acc'
      else tret acc
  end.

(** Modelled from the spec: the constructor of [TensorShape] is the
    framework's, not in this file; the spec's data model makes a TensorShape
    "an ordered sequence of non-negative integers", so the constructor
    refuses a list that holds a negative size. *)
Definition TensorShape_ctor (dim_sizes : list Z) : Traced TensorShape :=
  mkTraced
    (if forallb (fun d => 0 <=? d) dim_sizes
     then Ok dim_sizes
     else CheckFailed)
    [].

(** ** DmlScanKernel *)

Inductive DataType : Set := DT_HALF | DT_FLOAT | DT_INT32 | DT_INT64.

Inductive DML_AXIS_DIRECTION : Set :=
| DML_AXIS_DIRECTION_INCREASING
| DML_AXIS_DIRECTION_DECREASING.

Record DmlTensorDesc : Type := mkDmlTensorDesc {
  data_type : DataType;
  dimensions : TensorShape;
  non_broadcast_dimensions : TensorShape
}.

Record DmlTensorInfo : Type := mkDmlTensorInfo {
  kernel_index : Z;
  desc : DmlTensorDesc
}.

Record DmlKernelTensors : Type := mkDmlKernelTensors {
  supports_in_place_execution : bool;
  inputs : list DmlTensorInfo;
  outputs : list DmlTensorInfo
}.

(** The graph expressions the kernel builds. *)
Inductive Expression : Type :=
| InputTensor (index : Z) (d : DmlTensorDesc)
| CumulativeSummation (input : Expression) (axis : Z)
    (axis_direction : DML_AXIS_DIRECTION) (has_exclusive_sum : bool)
| CumulativeProduct (input : Expression) (axis : Z)
    (axis_direction : DML_AXIS_DIRECTION) (has_exclusive_product : bool).

Inductive ScanFunctor : Set := CumsumFunctor | CumprodFunctor.

Definition apply_functor (F : ScanFunctor) (input : Expression) (axis : Z)
  (axis_direction : DML_AXIS_DIRECTION) (has_exclusive : bool) : Expression :=
  match F with
  | CumsumFunctor => CumulativeSummation input axis axis_direction has_exclusive
  | CumprodFunctor => CumulativeProduct input axis axis_direction has_exclusive
  end.

Module DmlScanKernel.

Record t : Type := mk {
  tensors : DmlKernelTensors;
  compiled_op : Expression
}.

(** [acc *= shape.dim_size(i)] with [acc] an [int]: the product is taken
    in 64 bits ([dim_size] returns [int64]) and stored back in 32. *)
Definition mul_dim_size (s : TensorShape) (i acc : Z) : Traced Z :=
  d <~ dim_size s i ;;
  tret (to_int (to_int64 (acc * d))).

(** Lines 84-94: the four [int]s [{1, left, axis, right}] that line 96
    hands to the constructor of [TensorShape].  [dim_size] takes a C [int],
    so the 64-bit axis is narrowed where it is passed at line 94. *)
Definition collapse (original_input_shape : TensorShape) (axis : Z)
  : Traced (list Z) :=
  let fuel := S (length original_input_shape) in
  left_dim_size <~
    for_int fuel (fun i => i <? axis)
      (mul_dim_size original_input_shape) 0 1 ;;
  right_dim_size <~
    for_int fuel (fun i => i <? dims original_input_shape)
      (mul_dim_size original_input_shape) (to_int (to_int64 (axis + 1))) 1 ;;
  d <~ dim_size original_input_shape (to_int axis) ;;
  let axis_dim_size := to_int d in
  tret [1; left_dim_size; axis_dim_size; right_dim_size].

(** Lines 84-96: [TensorShape tensor_shape({1, left, axis, right})]. *)
Definition collapsed_shape (original_input_shape : TensorShape) (axis : Z)
  : Traced TensorShape :=
  dim_sizes <~ collapse original_input_shape axis ;;
  TensorShape_ctor dim_sizes.

Definition dml_axis : Z := 2.

Definition ctor (F : ScanFunctor) (input_type output_type : DataType)
  (original_input_shape : TensorShape) (init_helper : ScanInitHelper.t)
  : Traced t :=
  let axis := ScanInitHelper.GetAxis init_helper in
  let axis_direction :=
    if ScanInitHelper.IsReverse init_helper
    then DML_AXIS_DIRECTION_DECREASING
    else DML_AXIS_DIRECTION_INCREASING in
  tensor_shape <~ collapsed_shape original_input_shape axis ;;
  let input :=
    {| kernel_index := 0;
       desc := mkDmlTensorDesc input_type tensor_shape tensor_shape |} in
  let output :=
    {| kernel_index := 0;
       desc := mkDmlTensorDesc output_type tensor_shape tensor_shape |} in
  let tensors :=
    {| supports_in_place_execution := true;
       inputs := [input];
       outputs := [output] |} in
  let input_tensor := InputTensor 0 (desc input) in
  let result :=
    apply_functor F input_tensor dml_axis axis_direction
      (ScanInitHelper.IsExclusive init_helper) in
  tret {| tensors := tensors; compiled_op := result |}.

End DmlScanKernel.

(** ** Kernel registration *)

Inductive OpName : Set := Cumsum | Cumprod.

(** The functor each registered op name is instantiated with. *)
Definition registered_functor (op : OpName) : ScanFunctor :=
  match op with Cumsum => CumsumFunctor | Cumprod => CumprodFunctor end.

(** Modelled from the spec: [GetOutputShapeAsInputShapeHelper] is defined in
    [dml_ops_common.h], not in this file; the spec says the node's "output
    shape equals its input shape". *)
Definition GetOutputShapeAsInputShapeHelper (input : Tensor)
  : list TensorShape :=
  [shape input].

(** Modelled from the spec: [DmlKernelWrapper] is defined in
    [dml_kernel_wrapper.h], not in this file; the spec says validation
    failures "abort the single operation invocation", otherwise the output
    shape comes from the shape helper and the kernel is built from the
    initialization helper. *)
Definition DmlKernelWrapper_Compute (op : OpName) (T : Tidx) (dtype : DataType)
  (attr : ScanInitHelper.Attributes) (input tensor_axis : Tensor)
  : Outcome (list TensorShape * DmlScanKernel.t) :=
  init_helper <- ScanInitHelper.ctor T input tensor_axis attr ;;
  let output_shapes := GetOutputShapeAsInputShapeHelper input in
  kernel <- result (DmlScanKernel.ctor (registered_functor op) dtype dtype
                      (shape input) init_helper) ;;
  Ok (output_shapes, kernel).

(** ** The quantities the specification names *)

Definition product (l : list Z) : Z := fold_right Z.mul 1 l.

Definition total_elements (s : TensorShape) : Z := product s.

Definition spec_left_size (s : TensorShape) (k : Z) : Z :=
  product (firstn (Z.to_nat k) s).

Definition spec_axis_size (s : TensorShape) (k : Z) : Z :=
  nth (Z.to_nat k) s 0.

Definition spec_right_size (s : TensorShape) (k : Z) : Z :=
  product (skipn (S (Z.to_nat k)) s).

(** The indices [lo, lo+1, ..., lo+n-1]. *)
Definition index_range (lo n : nat) : list Z := map Z.of_nat (seq lo n).

(** The effective axis in the words of the specification: [R + a] when
    [a < 0], [a] otherwise, over the integers. *)
Definition effective_axis (R a : Z) : Z := if a <? 0 then R + a else a.

(** The message of the range failure, as the call site assembles it. *)
Definition axis_range_error (input : Tensor) (axis_ : Z) : Status :=
  errors.InvalidArgument
    [Text "ScanOp: Expected scan axis in the range [";
     Num (to_int (- dims (shape input)));
     Text ", ";
     Num (dims (shape input));
     Text "), but got ";
     Num axis_].

(** An upper bound on the iterations a loop of the kernel still makes when
    its counter is [i]. *)
Definition remaining (s : TensorShape) (i : Z) : nat :=
  if (0 <=? i) && (i <? dims s) then (length s - Z.to_nat i)%nat else 0%nat.

(** ** Attributes of the op

    [ScanInitHelper::Attributes] is built once per kernel from the
    construction context.  [GetAttr] belongs to the framework; here a
    context is what it answers for each attribute name, either the boolean
    or the status of the failed lookup. *)

Inductive AttrResult : Type :=
| AttrOk (b : bool)
| AttrError (st : Status).

Record OpKernelConstruction : Type := mkOpKernelConstruction {
  GetAttr : String.string -> AttrResult
}.

(** [OP_REQUIRES_OK(ctx, ctx->GetAttr(name, &field))]. *)
Definition OP_REQUIRES_OK (r : AttrResult) : Outcome bool :=
  match r with
  | AttrOk b => Ok b
  | AttrError st => CtxFailure st
  end.

Definition Attributes_ctor (ctx : OpKernelConstruction)
  : Outcome ScanInitHelper.Attributes :=
  reverse <- OP_REQUIRES_OK (GetAttr ctx "reverse") ;;
  exclusive <- OP_REQUIRES_OK (GetAttr ctx "exclusive") ;;
  Ok (ScanInitHelper.mkAttributes reverse exclusive).

(** ** The registrations

    Each [REGISTER_KERNEL_BUILDER] names the op, constrains the attributes
    ["T"] and ["Tidx"], pins the input ["axis"] to host memory and gives the
    instantiation [DmlScanKernel<Tidx, ScanFunctor>] to run. *)

Record KernelRegistration : Type := mkKernelRegistration {
  reg_Name : OpName;
  reg_T : DataType;
  reg_Tidx : Tidx;
  reg_HostMemory : list String.string;
  reg_kernel_Tidx : Tidx;
  reg_kernel_functor : ScanFunctor
}.

(** Lines 148-164. *)
Definition REGISTER_KERNELS_Cumsum (type : DataType)
  : list KernelRegistration :=
  [mkKernelRegistration Cumsum type int32 ["axis"] int32 CumsumFunctor;
   mkKernelRegistration Cumsum type int64 ["axis"] int64 CumsumFunctor].

(** Lines 172-188. *)
Definition REGISTER_KERNELS_Cumprod (type : DataType)
  : list KernelRegistration :=
  [mkKernelRegistration Cumprod type int32 ["axis"] int32 CumprodFunctor;
   mkKernelRegistration Cumprod type int64 ["axis"] int64 CumprodFunctor].

(** Lines 166-169 and 190-193: the macro is applied to half, float, int32
    and int64, first for Cumsum and then for Cumprod. *)
Definition registrations : list KernelRegistration :=
  REGISTER_KERNELS_Cumsum DT_HALF
  ++ REGISTER_KERNELS_Cumsum DT_FLOAT
  ++ REGISTER_KERNELS_Cumsum DT_INT32
  ++ REGISTER_KERNELS_Cumsum DT_INT64
  ++ REGISTER_KERNELS_Cumprod DT_HALF
  ++ REGISTER_KERNELS_Cumprod DT_FLOAT
  ++ REGISTER_KERNELS_Cumprod DT_INT32
  ++ REGISTER_KERNELS_Cumprod DT_INT64.

Definition OpName_eqb (a b : OpName) : bool :=
  match a, b with
  | Cumsum, Cumsum | Cumprod, Cumprod => true
  | _, _ => false
  end.

Definition DataType_eqb (a b : DataType) : bool :=
  match a, b with
  | DT_HALF, DT_HALF | DT_FLOAT, DT_FLOAT
  | DT_INT32, DT_INT32 | DT_INT64, DT_INT64 => true
  | _, _ => false
  end.

Definition Tidx_eqb (a b : Tidx) : bool :=
  match a, b with
  | int32, int32 | int64, int64 => true
  | _, _ => false
  end.

(** The registrations an op with the given name and attribute types
    matches. *)
Definition matching (op : OpName) (T : DataType) (idx : Tidx)
  : list KernelRegistration :=
  filter
    (fun r =>
       OpName_eqb (reg_Name r) op && DataType_eqb (reg_T r) T
       && Tidx_eqb (reg_Tidx r) idx)
    registrations.

(** The kernel built once the collapsed shape exists (lines 98-126). *)
Definition kernel_of_shape (F : ScanFunctor) (input_type output_type : DataType)
  (init_helper : ScanInitHelper.t) (tensor_shape : TensorShape)
  : DmlScanKernel.t :=
  DmlScanKernel.mk
    (mkDmlKernelTensors true
       [mkDmlTensorInfo 0
          (mkDmlTensorDesc input_type tensor_shape tensor_shape)]
       [mkDmlTensorInfo 0
          (mkDmlTensorDesc output_type tensor_shape tensor_shape)])
    (apply_functor F
       (InputTensor 0 (mkDmlTensorDesc input_type tensor_shape tensor_shape))
       DmlScanKernel.dml_axis
       (if ScanInitHelper.IsReverse init_helper
        then DML_AXIS_DIRECTION_DECREASING
        else DML_AXIS_DIRECTION_INCREASING)
       (ScanInitHelper.IsExclusive init_helper)).

(** ** Sanity checks on concrete inputs *)

Example ctor_axis_minus_one :
  ScanInitHelper.ctor int32 (mkTensor [2; 3; 4] (repeat 0 24))
    (scalar_tensor (-1))
    (ScanInitHelper.mkAttributes false false)
  = Ok (ScanInitHelper.mk (ScanInitHelper.mkAttributes false false) 2).
Proof. reflexivity. Qed.

Example collapse_2_3_4_axis_1 :
  DmlScanKernel.collapse [2; 3; 4] 1 = mkTraced (Ok [1; 2; 3; 4]) [0; 2; 1].
Proof. vm_compute. reflexivity. Qed.

Example collapse_5_axis_0 :
  DmlScanKernel.collapse [5] 0 = mkTraced (Ok [1; 1; 5; 1]) [0].
Proof. vm_compute. reflexivity. Qed.

Example collapse_out_of_bounds :
  DmlScanKernel.collapse [2; 3] 2 = mkTraced CheckFailed [0; 1; 2].
Proof. vm_compute. reflexivity. Qed.

Example collapse_wraps :
  DmlScanKernel.collapse [65536; 65536; 7] 2
  = mkTraced (Ok [1; 0; 7; 1]) [0; 1; 2].
Proof. vm_compute. reflexivity. Qed.

(** ** Facts about machine integers *)

Section SwrapFacts.

Variable width : Z.
Hypothesis width_pos : 0 < width.

Lemma pow2_width_split : 2 ^ width = 2 * 2 ^ (width - 1).
Proof.
  rewrite <- Z.pow_succ_r by lia. f_equal. lia.
Qed.

Lemma pow2_half_pos : 0 < 2 ^ (width - 1).
Proof. apply Z.pow_pos_nonneg; lia. Qed.

Lemma swrap_range (z : Z) :
  - 2 ^ (width - 1) <= swrap width z < 2 ^ (width - 1).
Proof.
  unfold swrap. rewrite pow2_width_split.
  pose proof pow2_half_pos.
  pose proof (Z.mod_pos_bound (z + 2 ^ (width - 1)) (2 * 2 ^ (width - 1))).
  lia.
Qed.

Lemma swrap_small (z : Z) :
  - 2 ^ (width - 1) <= z < 2 ^ (width - 1) -> swrap width z = z.
Proof.
  intros Hz. unfold swrap. rewrite pow2_width_split.
  rewrite Z.mod_small by lia. lia.
Qed.

Lemma swrap_decomp (z : Z) : exists q, swrap width z = z + q * 2 ^ width.
Proof.
  unfold swrap.
  exists (- ((z + 2 ^ (width - 1)) / 2 ^ width)).
  pose proof pow2_half_pos.
  pose proof (Z.div_mod (z + 2 ^ (width - 1)) (2 ^ width)) as Hdm.
  rewrite pow2_width_split in *. lia.
Qed.

Lemma swrap_congr (a b q : Z) :
  a = b + q * 2 ^ width -> swrap width a = swrap width b.
Proof.
  intros ->. unfold swrap.
  replace (b + q * 2 ^ width + 2 ^ (width - 1))
    with (b + 2 ^ (width - 1) + q * 2 ^ width) by lia.
  now rewrite Z_mod_plus_full.
Qed.

Lemma swrap_out_of_range (z : Z) :
  2 ^ (width - 1) <= z -> swrap width z <> z.
Proof.
  intros Hz. pose proof (swrap_range z). lia.
Qed.

End SwrapFacts.

Lemma to_int_range (z : Z) : fits_int (to_int z).
Proof.
  pose proof (swrap_range 32 ltac:(lia) z) as H.
  unfold fits_int, INT_MIN, INT_MAX, to_int.
  change (32 - 1) with 31 in H. lia.
Qed.

Lemma to_int_small (z : Z) : fits_int z -> to_int z = z.
Proof.
  unfold fits_int, INT_MIN, INT_MAX, to_int. intros Hz.
  apply swrap_small; [lia|]. change (32 - 1) with 31. lia.
Qed.

Lemma to_int_idem (z : Z) : to_int (to_int z) = to_int z.
Proof. apply to_int_small, to_int_range. Qed.

Lemma to_int_to_int64 (z : Z) : to_int (to_int64 z) = to_int z.
Proof.
  destruct (swrap_decomp 64 ltac:(lia) z) as [q Hq].
  unfold to_int, to_int64. rewrite Hq.
  apply swrap_congr with (q := q * 2 ^ 32).
  change (2 ^ 64) with (2 ^ 32 * 2 ^ 32). lia.
Qed.

Lemma to_int_mul_l (a b : Z) : to_int (to_int a * b) = to_int (a * b).
Proof.
  destruct (swrap_decomp 32 ltac:(lia) a) as [q Hq].
  unfold to_int. rewrite Hq.
  apply swrap_congr with (q := q * b); lia.
Qed.

Lemma to_int_mul_r (a b : Z) : to_int (a * to_int b) = to_int (a * b).
Proof.
  rewrite Z.mul_comm, to_int_mul_l. f_equal. lia.
Qed.

Lemma to_int_eqm (z : Z) : to_int z mod 2 ^ 32 = z mod 2 ^ 32.
Proof.
  destruct (swrap_decomp 32 ltac:(lia) z) as [q Hq].
  unfold to_int. rewrite Hq. apply Z_mod_plus_full.
Qed.

Lemma to_int_mul3_eqm (a b c : Z) :
  (to_int a * to_int b * to_int c) mod 2 ^ 32 = (a * b * c) mod 2 ^ 32.
Proof.
  assert (HM : 2 ^ 32 <> 0) by (vm_compute; discriminate).
  rewrite (Z.mul_mod (to_int a * to_int b) (to_int c)) by exact HM.
  rewrite (Z.mul_mod (to_int a) (to_int b)) by exact HM.
  rewrite !to_int_eqm.
  rewrite <- (Z.mul_mod a b) by exact HM.
  now rewrite <- Z.mul_mod by exact HM.
Qed.

Lemma to_int_exceeds (z : Z) : INT_MAX < z -> to_int z <> z.
Proof.
  unfold INT_MAX, to_int. intros Hz.
  apply swrap_out_of_range; [lia|]. change (32 - 1) with 31. lia.
Qed.

(** ** Facts about shapes and products *)

Lemma product_app (l1 l2 : list Z) :
  product (l1 ++ l2) = product l1 * product l2.
Proof.
  induction l1 as [|x l1 IH]; simpl.
  - destruct (product l2); reflexivity.
  - rewrite IH. lia.
Qed.

Lemma skipn_cons_nth_error (s : TensorShape) :
  forall (m : nat) (d : Z),
    nth_error s m = Some d -> skipn m s = d :: skipn (S m) s.
Proof.
  induction s as [|x s IH]; intros [|m] d H; simpl in *; try discriminate.
  - now inversion H.
  - now apply IH.
Qed.

Lemma nth_error_in_range (s : TensorShape) (m : nat) :
  (m < length s)%nat -> nth_error s m = Some (nth m s 0).
Proof.
  intros Hm. now apply nth_error_nth'.
Qed.

(** The element count splits at every axis into the three groups. *)
Lemma total_elements_split (s : TensorShape) (k : nat) :
  (k < length s)%nat ->
  total_elements s
  = product (firstn k s) * nth k s 0 * product (skipn (S k) s).
Proof.
  intros Hk. unfold total_elements.
  rewrite <- (firstn_skipn k s) at 1.
  rewrite product_app.
  rewrite (skipn_cons_nth_error s k _ (nth_error_in_range s k Hk)).
  simpl. lia.
Qed.

(** ** Facts about traced computations *)

Lemma tbind_ok {A B : Type} (m : Traced A) (k : A -> Traced B) (a : A) :
  result m = Ok a ->
  tbind m k = mkTraced (result (k a)) (accessed m ++ accessed (k a)).
Proof.
  intros H. unfold tbind. now rewrite H.
Qed.

Lemma dim_size_in_bounds (s : TensorShape) (m : nat) :
  (m < length s)%nat ->
  dim_size s (Z.of_nat m) = mkTraced (Ok (nth m s 0)) [Z.of_nat m].
Proof.
  intros Hm. unfold dim_size.
  destruct (Z.ltb_spec (Z.of_nat m) 0) as [Hneg|_]; [lia|].
  now rewrite Nat2Z.id, (nth_error_in_range s m Hm).
Qed.

Lemma dim_size_ok_bounds (s : TensorShape) (i d : Z) :
  result (dim_size s i) = Ok d -> 0 <= i < dims s.
Proof.
  unfold dim_size, dims. simpl.
  destruct (Z.ltb_spec i 0) as [Hneg|Hnn]; [discriminate|].
  destruct (nth_error s (Z.to_nat i)) eqn:E; [|discriminate].
  intros _. assert (Z.to_nat i < length s)%nat.
  { apply nth_error_Some. congruence. }
  lia.
Qed.

Lemma mul_dim_size_in_bounds (s : TensorShape) (m : nat) (acc : Z) :
  (m < length s)%nat ->
  DmlScanKernel.mul_dim_size s (Z.of_nat m) acc
  = mkTraced (Ok (to_int (acc * nth m s 0))) [Z.of_nat m].
Proof.
  intros Hm. unfold DmlScanKernel.mul_dim_size.
  rewrite (tbind_ok _ _ (nth m s 0)) by now rewrite dim_size_in_bounds.
  rewrite dim_size_in_bounds by assumption. simpl.
  now rewrite to_int_to_int64.
Qed.

(** A counted loop over in-bounds indices [m, m+n) multiplies the
    accumulator by those dimensions, modulo 2^32, and reads exactly them. *)
Lemma for_int_mul_dim_size (s : TensorShape) (cond : Z -> bool) :
  dims s <= INT_MAX ->
  forall (n m : nat) (acc : Z) (fuel : nat),
    (m + n <= length s)%nat ->
    (n < fuel)%nat ->
    fits_int acc ->
    (forall j, (m <= j < m + n)%nat -> cond (Z.of_nat j) = true) ->
    cond (Z.of_nat (m + n)) = false ->
    for_int fuel cond (DmlScanKernel.mul_dim_size s) (Z.of_nat m) acc
    = mkTraced (Ok (to_int (acc * product (firstn n (skipn m s)))))
        (index_range m n).
Proof.
  intros Hdims. unfold dims, INT_MAX in Hdims.
  induction n as [|n IH]; intros m acc fuel Hlen Hfuel Hacc Htrue Hfalse;
    (destruct fuel as [|fuel]; [lia|]); simpl for_int.
  - rewrite Nat.add_0_r in Hfalse. rewrite Hfalse.
    simpl. rewrite Z.mul_1_r, to_int_small by assumption. reflexivity.
  - rewrite (Htrue m) by lia.
    assert (Hm : (m < length s)%nat) by lia.
    rewrite (tbind_ok _ _ (to_int (acc * nth m s 0)))
      by now rewrite mul_dim_size_in_bounds.
    rewrite mul_dim_size_in_bounds by assumption.
    replace (to_int (Z.of_nat m + 1)) with (Z.of_nat (S m)).
    2:{ rewrite to_int_small; [lia|]. unfold fits_int, INT_MIN, INT_MAX. lia. }
    rewrite (IH (S m)).
    + simpl result. simpl accessed.
      rewrite (skipn_cons_nth_error s m _ (nth_error_in_range s m Hm)).
      rewrite firstn_cons. simpl product.
      rewrite to_int_mul_l. unfold index_range. simpl.
      do 2 f_equal. f_equal. lia.
    + lia.
    + lia.
    + apply to_int_range.
    + intros j Hj. apply Htrue. lia.
    + replace (S m + n)%nat with (m + S n)%nat by lia. assumption.
Qed.

(** The collapse at an in-bounds axis: each size is the true product
    reduced to a 32-bit [int], and the dimensions read are those left of
    the axis, then those right of it, then the axis itself. *)
Lemma collapse_in_bounds (s : TensorShape) (k : nat) :
  dims s <= INT_MAX ->
  (k < length s)%nat ->
  DmlScanKernel.collapse s (Z.of_nat k)
  = mkTraced
      (Ok [1;
           to_int (product (firstn k s));
           to_int (nth k s 0);
           to_int (product (skipn (S k) s))])
      (index_range 0 k ++ index_range (S k) (length s - S k)
         ++ [Z.of_nat k]).
Proof.
  intros Hdims Hk.
  assert (Hone : fits_int 1) by (unfold fits_int, INT_MIN, INT_MAX; lia).
  assert (HL :
    for_int (S (length s)) (fun i => i <? Z.of_nat k)
      (DmlScanKernel.mul_dim_size s) 0 1
    = mkTraced (Ok (to_int (product (firstn k s)))) (index_range 0 k)).
  { pose proof (for_int_mul_dim_size s (fun i => i <? Z.of_nat k) Hdims
                  k 0%nat 1 (S (length s))) as H.
    simpl skipn in H. rewrite Z.mul_1_l in H.
    apply H; [lia | lia | exact Hone | |].
    - intros j Hj. apply Z.ltb_lt. lia.
    - apply Z.ltb_ge. lia. }
  assert (Hstart : to_int (to_int64 (Z.of_nat k + 1)) = Z.of_nat (S k)).
  { rewrite to_int_to_int64, to_int_small; [lia|].
    unfold dims, fits_int, INT_MIN, INT_MAX in *. lia. }
  assert (HR :
    for_int (S (length s)) (fun i => i <? dims s)
      (DmlScanKernel.mul_dim_size s) (Z.of_nat (S k)) 1
    = mkTraced (Ok (to_int (product (skipn (S k) s))))
        (index_range (S k) (length s - S k))).
  { pose proof (for_int_mul_dim_size s (fun i => i <? dims s) Hdims
                  (length s - S k)%nat (S k) 1 (S (length s))) as H.
    rewrite Z.mul_1_l in H.
    rewrite (firstn_all2 (n := (length s - S k)%nat)) in H
      by (rewrite length_skipn; lia).
    apply H; [lia | lia | exact Hone | |].
    - intros j Hj. apply Z.ltb_lt. unfold dims. lia.
    - apply Z.ltb_ge. unfold dims. lia. }
  assert (Haxis : to_int (Z.of_nat k) = Z.of_nat k).
  { apply to_int_small. unfold dims, fits_int, INT_MIN, INT_MAX in *. lia. }
  unfold DmlScanKernel.collapse. cbv zeta.
  rewrite (tbind_ok _ _ _ (f_equal result HL)), HL.
  rewrite Hstart, Haxis.
  rewrite (tbind_ok _ _ _ (f_equal result HR)), HR.
  rewrite (tbind_ok _ _ (nth k s 0)) by now rewrite dim_size_in_bounds.
  rewrite dim_size_in_bounds by assumption.
  simpl. reflexivity.
Qed.

(** ** The fuel given to the loops is never exhausted

    Each iteration reads [dim_size] at the counter, which stops the run as
    soon as the counter leaves the shape, so one more test than the shape
    has dimensions is always enough, whatever the axis. *)

Lemma remaining_le_length (s : TensorShape) (i : Z) :
  (remaining s i <= length s)%nat.
Proof.
  unfold remaining. destruct (_ && _); lia.
Qed.

Lemma remaining_inside (s : TensorShape) (i : Z) :
  0 <= i < dims s -> remaining s i = (length s - Z.to_nat i)%nat.
Proof.
  intros Hi. unfold remaining.
  destruct (Z.leb_spec 0 i); [|lia].
  destruct (Z.ltb_spec i (dims s)); [reflexivity|lia].
Qed.

Lemma remaining_outside (s : TensorShape) (i : Z) :
  ~ 0 <= i < dims s -> remaining s i = 0%nat.
Proof.
  intros Hi. unfold remaining.
  destruct (Z.leb_spec 0 i); [|reflexivity].
  destruct (Z.ltb_spec i (dims s)); [lia|reflexivity].
Qed.

Lemma tbind_not_out_of_fuel {A B : Type} (m : Traced A) (k : A -> Traced B) :
  result m <> OutOfFuel ->
  (forall a, result m = Ok a -> result (k a) <> OutOfFuel) ->
  result (tbind m k) <> OutOfFuel.
Proof.
  intros Hm Hk. unfold tbind.
  destruct (result m) eqn:E; simpl; try discriminate.
  - now apply Hk.
  - contradiction.
Qed.

Lemma dim_size_not_out_of_fuel (s : TensorShape) (i : Z) :
  result (dim_size s i) <> OutOfFuel.
Proof.
  unfold dim_size. simpl.
  destruct (i <? 0); [discriminate|].
  destruct (nth_error s (Z.to_nat i)); discriminate.
Qed.

Lemma for_int_enough_fuel (s : TensorShape) (cond : Z -> bool) :
  forall (fuel : nat) (i acc : Z),
    fits_int i ->
    (remaining s i < fuel)%nat ->
    result (for_int fuel cond (DmlScanKernel.mul_dim_size s) i acc)
    <> OutOfFuel.
Proof.
  induction fuel as [|fuel IH]; intros i acc Hi Hfuel; [lia|].
  simpl for_int. destruct (cond i); [|discriminate].
  apply tbind_not_out_of_fuel.
  - unfold DmlScanKernel.mul_dim_size.
    apply tbind_not_out_of_fuel; [apply dim_size_not_out_of_fuel|].
    discriminate.
  - intros acc' Hacc'. apply IH; [apply to_int_range|].
    unfold DmlScanKernel.mul_dim_size, tbind in Hacc'.
    destruct (result (dim_size s i)) as [d| | |] eqn:Hd; try discriminate.
    apply dim_size_ok_bounds in Hd.
    rewrite (remaining_inside s i Hd) in Hfuel.
    destruct (Z_le_gt_dec (i + 1) INT_MAX) as [Hfit|Hover].
    + rewrite to_int_small by (unfold fits_int, INT_MIN, INT_MAX in *; lia).
      destruct (Z_lt_ge_dec (i + 1) (dims s)) as [Hin|Hout].
      * rewrite remaining_inside by lia. unfold dims in *. lia.
      * rewrite remaining_outside by lia. unfold dims in *. lia.
    + assert (Hwrap : i + 1 = 2 ^ 31)
        by (unfold fits_int, INT_MIN, INT_MAX in *; lia).
      rewrite Hwrap. change (to_int (2 ^ 31)) with (- 2 ^ 31).
      rewrite remaining_outside by lia. unfold dims in Hd. lia.
Qed.

Lemma collapse_never_out_of_fuel (s : TensorShape) (axis : Z) :
  result (DmlScanKernel.collapse s axis) <> OutOfFuel.
Proof.
  unfold DmlScanKernel.collapse. cbv zeta.
  apply tbind_not_out_of_fuel.
  - apply for_int_enough_fuel.
    + unfold fits_int, INT_MIN, INT_MAX. lia.
    + pose proof (remaining_le_length s 0). lia.
  - intros left_dim_size _. apply tbind_not_out_of_fuel.
    + apply for_int_enough_fuel; [apply to_int_range|].
      pose proof (remaining_le_length s (to_int (to_int64 (axis + 1)))). lia.
    + intros right_dim_size _. apply tbind_not_out_of_fuel.
      * apply dim_size_not_out_of_fuel.
      * discriminate.
Qed.

(** ** Facts about the initialization helper *)

Lemma effective_axis_neg (R a : Z) : a < 0 -> effective_axis R a = R + a.
Proof.
  intros Ha. unfold effective_axis.
  destruct (Z.ltb_spec a 0); [reflexivity|lia].
Qed.

Lemma effective_axis_nonneg (R a : Z) : 0 <= a -> effective_axis R a = a.
Proof.
  intros Ha. unfold effective_axis.
  destruct (Z.ltb_spec a 0); [lia|reflexivity].
Qed.

Lemma Tidx_range_of_int (T : Tidx) (z : Z) : fits_int z -> Tidx_range T z.
Proof.
  unfold fits_int, INT_MIN, INT_MAX, Tidx_range.
  destruct T; simpl Tidx_width; [change (32 - 1) with 31|change (64 - 1) with 63];
    intros Hz; [lia|].
  assert (2 ^ 31 < 2 ^ 63) by reflexivity. lia.
Qed.

Lemma resolve_exact (T : Tidx) (R a : Z) :
  0 <= R <= INT_MAX ->
  Tidx_range T a ->
  ScanInitHelper.resolve T R a = effective_axis R a.
Proof.
  intros HR Ha. unfold ScanInitHelper.resolve, effective_axis.
  destruct (Z.ltb_spec a 0) as [Hneg|Hnn]; [|reflexivity].
  apply swrap_small; [destruct T; reflexivity|].
  assert (HRT : Tidx_range T R).
  { apply Tidx_range_of_int. unfold fits_int, INT_MIN, INT_MAX in *. lia. }
  unfold Tidx_range in *. lia.
Qed.

Lemma dims_nonneg (s : TensorShape) : 0 <= dims s.
Proof. unfold dims. lia. Qed.

Lemma FastBoundsCheck_true (index limit : Z) :
  FastBoundsCheck index limit = true <-> 0 <= index < limit.
Proof.
  unfold FastBoundsCheck. rewrite andb_true_iff, Z.leb_le, Z.ltb_lt. tauto.
Qed.

Lemma FastBoundsCheck_false (index limit : Z) :
  FastBoundsCheck index limit = false <-> ~ 0 <= index < limit.
Proof.
  rewrite <- FastBoundsCheck_true. destruct (FastBoundsCheck index limit).
  - split; [discriminate|]. intros H. now contradiction H.
  - split; [discriminate|reflexivity].
Qed.

Lemma ctor_scalar_axis (T : Tidx) (input : Tensor) (a : Z)
  (attr : ScanInitHelper.Attributes) :
  ScanInitHelper.ctor T input (scalar_tensor a) attr
  = if FastBoundsCheck (ScanInitHelper.resolve T (dims (shape input)) a)
         (dims (shape input))
    then Ok (ScanInitHelper.mk attr
               (ScanInitHelper.resolve T (dims (shape input)) a))
    else CtxFailure
           (axis_range_error input
              (ScanInitHelper.resolve T (dims (shape input)) a)).
Proof.
  unfold ScanInitHelper.ctor. simpl.
  destruct (FastBoundsCheck _ _); reflexivity.
Qed.

Lemma ctor_ok_inv (T : Tidx) (input tensor_axis : Tensor)
  (attr : ScanInitHelper.Attributes) (h : ScanInitHelper.t) :
  ScanInitHelper.ctor T input tensor_axis attr = Ok h ->
  exists a,
    scalar tensor_axis = Ok a
    /\ h = ScanInitHelper.mk attr
             (ScanInitHelper.resolve T (dims (shape input)) a)
    /\ FastBoundsCheck (ScanInitHelper.axis_ h) (dims (shape input)) = true.
Proof.
  unfold ScanInitHelper.ctor.
  destruct (IsScalar (shape tensor_axis)); simpl; [|discriminate].
  destruct (scalar tensor_axis) as [a| | |]; simpl; try discriminate.
  destruct (FastBoundsCheck _ _) eqn:E; simpl; [|discriminate].
  intros H. inversion H. subst h. exists a. simpl. auto.
Qed.

(** The collapse at a valid axis, in the quantities of the specification. *)
Lemma collapse_valid_axis (s : TensorShape) (k : Z) :
  dims s <= INT_MAX ->
  0 <= k < dims s ->
  DmlScanKernel.collapse s k
  = mkTraced
      (Ok [1;
           to_int (spec_left_size s k);
           to_int (spec_axis_size s k);
           to_int (spec_right_size s k)])
      (index_range 0 (Z.to_nat k)
         ++ index_range (S (Z.to_nat k)) (length s - S (Z.to_nat k))
         ++ [k]).
Proof.
  intros Hdims Hk.
  assert (Hn : (Z.to_nat k < length s)%nat) by (unfold dims in Hk; lia).
  pose proof (collapse_in_bounds s _ Hdims Hn) as Hc.
  rewrite Z2Nat.id in Hc by lia. exact Hc.
Qed.

Lemma collapse_trace_in_bounds (s : TensorShape) (k : Z) :
  0 <= k < dims s ->
  Forall (fun i => 0 <= i < dims s)
    (index_range 0 (Z.to_nat k)
       ++ index_range (S (Z.to_nat k)) (length s - S (Z.to_nat k))
       ++ [k]).
Proof.
  intros Hk. unfold index_range, dims in *.
  rewrite !Forall_app. repeat split.
  - apply Forall_map, Forall_forall. intros j Hj%in_seq. lia.
  - apply Forall_map, Forall_forall. intros j Hj%in_seq. lia.
  - repeat constructor; lia.
Qed.

Lemma total_elements_spec_split (s : TensorShape) (k : Z) :
  0 <= k < dims s ->
  total_elements s
  = spec_left_size s k * spec_axis_size s k * spec_right_size s k.
Proof.
  intros Hk. apply total_elements_split. unfold dims in Hk. lia.
Qed.

(** ** Tactics for concrete instances *)

Ltac solve_range :=
  unfold fits_int, INT_MIN, INT_MAX, Tidx_range, dims,
    spec_left_size, spec_axis_size, spec_right_size, total_elements;
  simpl; lia.

(** ** Inversion of traced computations *)

Lemma tbind_ok_inv {A B : Type} (m : Traced A) (k : A -> Traced B) (b : B) :
  result (tbind m k) = Ok b ->
  exists a, result m = Ok a /\ result (k a) = Ok b.
Proof.
  unfold tbind. destruct (result m) as [a| | |]; simpl; try discriminate.
  intros H. now exists a.
Qed.

Lemma mul_dim_size_fits (s : TensorShape) (i acc v : Z) :
  result (DmlScanKernel.mul_dim_size s i acc) = Ok v -> fits_int v.
Proof.
  unfold DmlScanKernel.mul_dim_size. intros H.
  apply tbind_ok_inv in H as (d & _ & Hv). inversion Hv. apply to_int_range.
Qed.

Lemma for_int_fits (s : TensorShape) (cond : Z -> bool) :
  forall (fuel : nat) (i acc v : Z),
    fits_int acc ->
    result (for_int fuel cond (DmlScanKernel.mul_dim_size s) i acc) = Ok v ->
    fits_int v.
Proof.
  induction fuel as [|fuel IH]; intros i acc v Hacc; simpl for_int;
    [discriminate|].
  destruct (cond i).
  - intros H. apply tbind_ok_inv in H as (acc' & Hacc' & Hv).
    apply (IH _ _ _ (mul_dim_size_fits _ _ _ _ Hacc') Hv).
  - simpl. intros H. inversion H. now subst.
Qed.

(** What a completed collapse looks like, whatever the shape and axis. *)
Lemma collapse_ok_inv (s : TensorShape) (axis : Z) (ts : list Z) :
  result (DmlScanKernel.collapse s axis) = Ok ts ->
  0 <= to_int axis < dims s
  /\ exists l a r,
       ts = [1; l; a; r] /\ fits_int l /\ fits_int a /\ fits_int r.
Proof.
  unfold DmlScanKernel.collapse. cbv zeta. intros H.
  assert (Hone : fits_int 1) by solve_range.
  apply tbind_ok_inv in H as (l & Hl & H).
  apply tbind_ok_inv in H as (r & Hr & H).
  apply tbind_ok_inv in H as (d & Hd & H).
  simpl in H. inversion H.
  split; [now apply (dim_size_ok_bounds s (to_int axis) d)|].
  exists l, (to_int d), r.
  split; [reflexivity|]. split; [|split].
  - apply (for_int_fits _ _ _ _ _ _ Hone Hl).
  - apply to_int_range.
  - apply (for_int_fits _ _ _ _ _ _ Hone Hr).
Qed.

(** The constructor of line 96 is the only step after the four [int]s. *)
Lemma collapsed_shape_result (s : TensorShape) (axis : Z) :
  result (DmlScanKernel.collapsed_shape s axis)
  = match result (DmlScanKernel.collapse s axis) with
    | Ok dim_sizes =>
        if forallb (fun d => 0 <=? d) dim_sizes
        then Ok dim_sizes
        else CheckFailed
    | CtxFailure st => CtxFailure st
    | CheckFailed => CheckFailed
    | OutOfFuel => OutOfFuel
    end.
Proof.
  unfold DmlScanKernel.collapsed_shape, tbind.
  destruct (result (DmlScanKernel.collapse s axis)); reflexivity.
Qed.

Lemma collapsed_shape_ok_inv (s : TensorShape) (axis : Z) (ts : TensorShape) :
  result (DmlScanKernel.collapsed_shape s axis) = Ok ts ->
  result (DmlScanKernel.collapse s axis) = Ok ts
  /\ exists l a r,
       ts = [1; l; a; r]
       /\ 0 <= l <= INT_MAX /\ 0 <= a <= INT_MAX /\ 0 <= r <= INT_MAX.
Proof.
  rewrite collapsed_shape_result.
  destruct (result (DmlScanKernel.collapse s axis)) as [ints| | |] eqn:E;
    try discriminate.
  destruct (forallb (fun d => 0 <=? d) ints) eqn:Hnn; [|discriminate].
  intros H. inversion H. subst ts. split; [reflexivity|].
  apply collapse_ok_inv in E as (_ & l & a & r & -> & Hl & Ha & Hr).
  simpl in Hnn. rewrite !andb_true_iff, !Z.leb_le in Hnn.
  unfold fits_int in *. exists l, a, r.
  split; [reflexivity|]. lia.
Qed.

(** After the shape is built the kernel constructor has no step that can
    fail. *)
Lemma kernel_ctor_result (F : ScanFunctor) (it ot : DataType)
  (s : TensorShape) (h : ScanInitHelper.t) :
  result (DmlScanKernel.ctor F it ot s h)
  = match result (DmlScanKernel.collapsed_shape s (ScanInitHelper.GetAxis h))
    with
    | Ok ts => Ok (kernel_of_shape F it ot h ts)
    | CtxFailure st => CtxFailure st
    | CheckFailed => CheckFailed
    | OutOfFuel => OutOfFuel
    end.
Proof.
  unfold DmlScanKernel.ctor. cbv zeta. unfold tbind at 1.
  destruct (result (DmlScanKernel.collapsed_shape s (ScanInitHelper.GetAxis h)));
    reflexivity.
Qed.


(** * The properties of the specification *)

(** ** Axis resolution *)

(** C3. The axis resolver turns a raw axis [a] on a rank-[R] input into
    [R + a] when [a < 0] and into [a] otherwise, and that is the axis the
    helper stores when it accepts it; for every [R >= 1] the raw axis [-1]
    resolves to [R - 1] and the raw axis [-R] to [0]. *)
Theorem C3_axis_resolver_normalises_negative_axes
  (T : Tidx) (input : Tensor) (attr : ScanInitHelper.Attributes) (a : Z) :
  dims (shape input) <= INT_MAX ->
  Tidx_range T a ->
  ScanInitHelper.resolve T (dims (shape input)) a
  = effective_axis (dims (shape input)) a
  /\ (forall h,
        ScanInitHelper.ctor T input (scalar_tensor a) attr = Ok h ->
        ScanInitHelper.GetAxis h = effective_axis (dims (shape input)) a)
  /\ (1 <= dims (shape input) ->
      ScanInitHelper.ctor T input (scalar_tensor (-1)) attr
      = Ok (ScanInitHelper.mk attr (dims (shape input) - 1))
      /\ ScanInitHelper.ctor T input (scalar_tensor (- dims (shape input))) attr
         = Ok (ScanInitHelper.mk attr 0)).
Proof.
  intros HR Ha.
  pose proof (dims_nonneg (shape input)) as H0.
  assert (Hres : forall b, Tidx_range T b ->
            ScanInitHelper.resolve T (dims (shape input)) b
            = effective_axis (dims (shape input)) b).
  { intros b Hb. apply resolve_exact; [lia|assumption]. }
  split; [now apply Hres|]. split.
  - intros h Hh. apply ctor_ok_inv in Hh as (b & Hb & -> & _).
    inversion Hb. subst b. simpl. now apply Hres.
  - intros H1. split; rewrite ctor_scalar_axis, Hres.
    + rewrite effective_axis_neg by lia.
      replace (dims (shape input) + -1) with (dims (shape input) - 1) by lia.
      now rewrite (proj2 (FastBoundsCheck_true _ _)) by lia.
    + apply Tidx_range_of_int. solve_range.
    + rewrite effective_axis_neg by lia.
      replace (dims (shape input) + - dims (shape input)) with 0 by lia.
      now rewrite (proj2 (FastBoundsCheck_true _ _)) by lia.
    + apply Tidx_range_of_int.
      unfold fits_int, INT_MIN, INT_MAX in *. lia.
Qed.

Lemma C3_witness :
  ScanInitHelper.resolve int64 3 (-2) = 1
  /\ ScanInitHelper.ctor int64 (mkTensor [2; 3; 4] (repeat 0 24))
       (scalar_tensor (-1)) (ScanInitHelper.mkAttributes false true)
     = Ok (ScanInitHelper.mk (ScanInitHelper.mkAttributes false true) 2)
  /\ ScanInitHelper.ctor int64 (mkTensor [2; 3; 4] (repeat 0 24))
       (scalar_tensor (-3)) (ScanInitHelper.mkAttributes false true)
     = Ok (ScanInitHelper.mk (ScanInitHelper.mkAttributes false true) 0).
Proof.
  destruct (C3_axis_resolver_normalises_negative_axes int64
              (mkTensor [2; 3; 4] (repeat 0 24))
              (ScanInitHelper.mkAttributes false true) (-2))
    as (Hres & _ & Hneg).
  - solve_range.
  - solve_range.
  - split; [exact Hres|]. apply Hneg. solve_range.
Defined.

(** C4, as the code has it.  A scalar axis whose effective value is
    outside [[0, R)] makes the constructor fail with an InvalidArgument
    status (the code never raises OutOfRange) carrying the range and the
    offending axis, and the invocation is aborted with that status; the raw
    axes [R] and [-R-1] are two such values. *)
Theorem C4_out_of_range_axis_is_invalid_argument
  (op : OpName) (T : Tidx) (dtype : DataType) (input : Tensor)
  (attr : ScanInitHelper.Attributes) :
  dims (shape input) <= INT_MAX ->
  (forall a,
      Tidx_range T a ->
      ~ 0 <= effective_axis (dims (shape input)) a < dims (shape input) ->
      exists st,
        ScanInitHelper.ctor T input (scalar_tensor a) attr = CtxFailure st
        /\ DmlKernelWrapper_Compute op T dtype attr input (scalar_tensor a)
           = CtxFailure st
        /\ code st = INVALID_ARGUMENT
        /\ st = axis_range_error input
                  (effective_axis (dims (shape input)) a))
  /\ ScanInitHelper.ctor T input (scalar_tensor (dims (shape input))) attr
     = CtxFailure (axis_range_error input (dims (shape input)))
  /\ ScanInitHelper.ctor T input
       (scalar_tensor (- dims (shape input) - 1)) attr
     = CtxFailure (axis_range_error input (-1)).
Proof.
  intros HR.
  pose proof (dims_nonneg (shape input)) as H0.
  assert (Hfail : forall a,
      Tidx_range T a ->
      ~ 0 <= effective_axis (dims (shape input)) a < dims (shape input) ->
      ScanInitHelper.ctor T input (scalar_tensor a) attr
      = CtxFailure (axis_range_error input
                      (effective_axis (dims (shape input)) a))).
  { intros a Ha Hout. rewrite ctor_scalar_axis, resolve_exact by (lia || assumption).
    now rewrite (proj2 (FastBoundsCheck_false _ _) Hout). }
  split; [|split].
  - intros a Ha Hout. eexists. split; [now apply Hfail|].
    split; [|split; reflexivity].
    unfold DmlKernelWrapper_Compute. now rewrite (Hfail a Ha Hout).
  - rewrite Hfail.
    + now rewrite effective_axis_nonneg by lia.
    + apply Tidx_range_of_int.
      unfold fits_int, INT_MIN, INT_MAX in *. lia.
    + rewrite effective_axis_nonneg by lia. lia.
  - rewrite Hfail.
    + rewrite effective_axis_neg by lia. do 2 f_equal. lia.
    + apply Tidx_range_of_int.
      unfold fits_int, INT_MIN, INT_MAX in *. lia.
    + rewrite effective_axis_neg by lia. lia.
Qed.

Lemma C4_witness :
  (exists st,
      ScanInitHelper.ctor int32 (mkTensor [2; 3] (repeat 0 6))
        (scalar_tensor 5) (ScanInitHelper.mkAttributes true false)
      = CtxFailure st
      /\ code st = INVALID_ARGUMENT)
  /\ ScanInitHelper.ctor int32 (mkTensor [2; 3] (repeat 0 6)) (scalar_tensor 2)
       (ScanInitHelper.mkAttributes true false)
     = CtxFailure (axis_range_error (mkTensor [2; 3] (repeat 0 6)) 2)
  /\ ScanInitHelper.ctor int32 (mkTensor [2; 3] (repeat 0 6))
       (scalar_tensor (-3)) (ScanInitHelper.mkAttributes true false)
     = CtxFailure (axis_range_error (mkTensor [2; 3] (repeat 0 6)) (-1)).
Proof.
  destruct (C4_out_of_range_axis_is_invalid_argument Cumsum int32 DT_FLOAT
              (mkTensor [2; 3] (repeat 0 6))
              (ScanInitHelper.mkAttributes true false))
    as (Hall & Hhigh & Hlow).
  - solve_range.
  - split; [|split; [exact Hhigh|exact Hlow]].
    destruct (Hall 5) as (st & Hst & _ & Hcode & _).
    + solve_range.
    + vm_compute. intros [_ Hlt]. discriminate.
    + exists st. split; [exact Hst|exact Hcode].
Defined.

(** C4 as written fails: on a rank-2 input the raw axis 2 is rejected, but
    the status is not an OutOfRange one. *)
Lemma C4_counterexample_not_out_of_range :
  ~ (forall (T : Tidx) (input : Tensor) (attr : ScanInitHelper.Attributes)
            (a : Z),
        Tidx_range T a ->
        ~ 0 <= effective_axis (dims (shape input)) a < dims (shape input) ->
        exists msg,
          ScanInitHelper.ctor T input (scalar_tensor a) attr
          = CtxFailure (mkStatus OUT_OF_RANGE msg)).
Proof.
  intros H.
  destruct (H int32 (mkTensor [2; 3] (repeat 0 6))
              (ScanInitHelper.mkAttributes false false) 2) as [msg Hmsg].
  - solve_range.
  - vm_compute. intros [_ Hlt]. discriminate.
  - vm_compute in Hmsg. discriminate.
Qed.

(** C5. An axis tensor that is not a scalar makes initialization fail with
    an InvalidArgument status, whatever values the tensor holds. *)
Theorem C5_non_scalar_axis_is_invalid_argument
  (T : Tidx) (input tensor_axis : Tensor) (attr : ScanInitHelper.Attributes) :
  shape tensor_axis <> [] ->
  ScanInitHelper.ctor T input tensor_axis attr
  = CtxFailure
      (errors.InvalidArgument
         [Text "ScanOp: axis must be a scalar, not ";
          DebugString (shape tensor_axis)])
  /\ forall st,
       ScanInitHelper.ctor T input tensor_axis attr = CtxFailure st ->
       code st = INVALID_ARGUMENT.
Proof.
  intros Hshape. unfold ScanInitHelper.ctor.
  destruct (shape tensor_axis) as [|d ds] eqn:E; [contradiction|].
  simpl. split; [reflexivity|].
  intros st Hst. inversion Hst. reflexivity.
Qed.

Lemma C5_witness :
  ScanInitHelper.ctor int32 (mkTensor [2; 3] (repeat 0 6))
    (mkTensor [1] [0]) (ScanInitHelper.mkAttributes false false)
  = CtxFailure
      (errors.InvalidArgument
         [Text "ScanOp: axis must be a scalar, not "; DebugString [1]]).
Proof.
  apply (C5_non_scalar_axis_is_invalid_argument int32
           (mkTensor [2; 3] (repeat 0 6)) (mkTensor [1] [0])
           (ScanInitHelper.mkAttributes false false)).
  simpl. discriminate.
Defined.

(** C9. On a rank-0 operand no axis passes the bounds check: the
    constructor never completes, a scalar axis [a] is rejected with the
    range failure for the empty range, and the invocation is aborted. *)
Theorem C9_rank0_operand_always_fails
  (T : Tidx) (input tensor_axis : Tensor) (attr : ScanInitHelper.Attributes) :
  shape input = [] ->
  (forall h, ScanInitHelper.ctor T input tensor_axis attr <> Ok h)
  /\ (forall op dtype r,
        DmlKernelWrapper_Compute op T dtype attr input tensor_axis <> Ok r)
  /\ (forall a,
        ScanInitHelper.ctor T input (scalar_tensor a) attr
        = CtxFailure
            (axis_range_error input (ScanInitHelper.resolve T 0 a))).
Proof.
  intros Hshape.
  assert (Hdims : dims (shape input) = 0) by now rewrite Hshape.
  assert (Hno : forall h, ScanInitHelper.ctor T input tensor_axis attr <> Ok h).
  { intros h Hh. apply ctor_ok_inv in Hh as (a & _ & _ & Hb).
    apply FastBoundsCheck_true in Hb. lia. }
  split; [exact Hno|]. split.
  - intros op dtype r Hr. unfold DmlKernelWrapper_Compute in Hr.
    destruct (ScanInitHelper.ctor T input tensor_axis attr) as [h| | |] eqn:E;
      try discriminate.
    now apply (Hno h).
  - intros a. rewrite ctor_scalar_axis, Hdims.
    now rewrite (proj2 (FastBoundsCheck_false _ 0)) by lia.
Qed.

Lemma C9_witness :
  ScanInitHelper.ctor int32 (scalar_tensor 7) (scalar_tensor 0)
    (ScanInitHelper.mkAttributes false false)
  = CtxFailure (axis_range_error (scalar_tensor 7) 0).
Proof.
  apply (C9_rank0_operand_always_fails int32 (scalar_tensor 7)
           (scalar_tensor 0) (ScanInitHelper.mkAttributes false false)).
  reflexivity.
Defined.

(** ** Shape collapsing *)




(** C8. When the helper's constructor completes, the stored axis lies in
    [[0, rank of the input)]; the collapse on that input then reads the
    dimensions [0 .. axis-1], [axis+1 .. R-1] and [axis], all of them inside
    the shape, and completes. *)
Theorem C8_stored_axis_in_bounds
  (T : Tidx) (input tensor_axis : Tensor) (attr : ScanInitHelper.Attributes)
  (h : ScanInitHelper.t) :
  dims (shape input) <= INT_MAX ->
  ScanInitHelper.ctor T input tensor_axis attr = Ok h ->
  0 <= ScanInitHelper.GetAxis h < dims (shape input)
  /\ accessed (DmlScanKernel.collapse (shape input) (ScanInitHelper.GetAxis h))
     = index_range 0 (Z.to_nat (ScanInitHelper.GetAxis h))
       ++ index_range (S (Z.to_nat (ScanInitHelper.GetAxis h)))
            (length (shape input) - S (Z.to_nat (ScanInitHelper.GetAxis h)))
       ++ [ScanInitHelper.GetAxis h]
  /\ Forall (fun i => 0 <= i < dims (shape input))
       (accessed
          (DmlScanKernel.collapse (shape input) (ScanInitHelper.GetAxis h)))
  /\ exists ts,
       result
         (DmlScanKernel.collapse (shape input) (ScanInitHelper.GetAxis h))
       = Ok ts.
Proof.
  intros Hdims Hctor.
  apply ctor_ok_inv in Hctor as (a & _ & _ & Hb).
  apply FastBoundsCheck_true in Hb.
  change (ScanInitHelper.axis_ h) with (ScanInitHelper.GetAxis h) in Hb.
  rewrite (collapse_valid_axis _ _ Hdims Hb). simpl result. simpl accessed.
  split; [exact Hb|]. split; [reflexivity|].
  split; [now apply collapse_trace_in_bounds|eauto].
Qed.

Lemma C8_witness :
  0 <= 1 < 3
  /\ accessed (DmlScanKernel.collapse [2; 3; 4] 1) = [0; 2; 1].
Proof.
  destruct (C8_stored_axis_in_bounds int32
              (mkTensor [2; 3; 4] (repeat 0 24)) (scalar_tensor (-2))
              (ScanInitHelper.mkAttributes false false)
              (ScanInitHelper.mk (ScanInitHelper.mkAttributes false false) 1))
    as (Hb & Hacc & _).
  - solve_range.
  - reflexivity.
  - split; [exact Hb|exact Hacc].
Defined.

(** C2, as the code has it.  At a valid axis [k] the collapse yields
    [[1, left, axis, right]] with [left] the product of [dims[0..k)] (1 when
    [k = 0]), [axis] the size [dims[k]] and [right] the product of
    [dims[k+1..R)] (1 when [k = R-1]), provided each of the three fits a
    32-bit signed [int]; a rank-1 shape [[d]] yields [[1, 1, d, 1]]. *)
Theorem C2_collapsed_shape_when_sizes_fit (s : TensorShape) (k : Z) :
  dims s <= INT_MAX ->
  0 <= k < dims s ->
  fits_int (spec_left_size s k) ->
  fits_int (spec_axis_size s k) ->
  fits_int (spec_right_size s k) ->
  result (DmlScanKernel.collapse s k)
  = Ok [1; spec_left_size s k; spec_axis_size s k; spec_right_size s k]
  /\ (k = 0 -> spec_left_size s k = 1)
  /\ (k = dims s - 1 -> spec_right_size s k = 1)
  /\ (forall d, s = [d] ->
        result (DmlScanKernel.collapse s k) = Ok [1; 1; d; 1]).
Proof.
  intros Hdims Hk HL HA HR.
  assert (Hc : result (DmlScanKernel.collapse s k)
               = Ok [1; spec_left_size s k; spec_axis_size s k;
                     spec_right_size s k]).
  { rewrite (collapse_valid_axis s k Hdims Hk). simpl result.
    now rewrite !to_int_small by assumption. }
  split; [exact Hc|]. split; [|split].
  - intros ->. reflexivity.
  - intros Hlast. unfold spec_right_size.
    rewrite skipn_all2; [reflexivity|]. unfold dims in *. lia.
  - intros d ->. rewrite Hc.
    assert (k = 0) by (unfold dims in Hk; simpl in Hk; lia).
    subst k. reflexivity.
Qed.

Lemma C2_witness :
  result (DmlScanKernel.collapse [2; 3; 4] 1) = Ok [1; 2; 3; 4].
Proof.
  apply (C2_collapsed_shape_when_sizes_fit [2; 3; 4] 1); solve_range.
Defined.

(** C2 as written fails: a rank-1 shape whose only dimension is 2^32
    collapses, at axis 0, to [[1, 1, 0, 1]]. *)
Lemma C2_counterexample_large_dimension :
  ~ (forall (s : TensorShape) (k : Z),
        0 <= k < dims s ->
        result (DmlScanKernel.collapse s k)
        = Ok [1; spec_left_size s k; spec_axis_size s k;
              spec_right_size s k]).
Proof.
  intros H.
  assert (Hk : 0 <= 0 < dims [4294967296]) by solve_range.
  specialize (H [4294967296] 0 Hk).
  vm_compute in H. discriminate.
Qed.

(** C1, as the code has it.  At a valid axis the three collapsed sizes
    multiply to the element count of the input shape whenever the left
    product, the axis size and the right product each fit a 32-bit signed
    [int], and also whenever the shape has no elements. *)
Theorem C1_collapse_preserves_element_count (s : TensorShape) (k : Z) :
  dims s <= INT_MAX ->
  0 <= k < dims s ->
  (fits_int (spec_left_size s k)
   /\ fits_int (spec_axis_size s k)
   /\ fits_int (spec_right_size s k))
  \/ total_elements s = 0 ->
  exists left_size axis_size right_size,
    result (DmlScanKernel.collapse s k)
    = Ok [1; left_size; axis_size; right_size]
    /\ left_size * axis_size * right_size = total_elements s.
Proof.
  intros Hdims Hk Hcase.
  rewrite (collapse_valid_axis s k Hdims Hk). simpl result.
  do 3 eexists. split; [reflexivity|].
  rewrite (total_elements_spec_split s k Hk) in *.
  destruct Hcase as [(HL & HA & HR)|Hzero].
  - now rewrite !to_int_small by assumption.
  - rewrite Hzero.
    apply Z.mul_eq_0 in Hzero as [Hzero|Hzero];
      [apply Z.mul_eq_0 in Hzero as [Hzero|Hzero]|];
      rewrite Hzero; change (to_int 0) with 0; lia.
Qed.

Lemma C1_witness :
  exists left_size axis_size right_size,
    result (DmlScanKernel.collapse [2; 3; 4; 5] 2)
    = Ok [1; left_size; axis_size; right_size]
    /\ left_size * axis_size * right_size = 120.
Proof.
  apply (C1_collapse_preserves_element_count [2; 3; 4; 5] 2).
  - solve_range.
  - solve_range.
  - left. repeat split; solve_range.
Defined.

(** C1 as written fails: the shape [[1, 65536, 65536]] has 2^32 elements,
    and at axis 0 its right product is stored as 0. *)
Lemma C1_counterexample_wrapped_product :
  ~ (forall (s : TensorShape) (k left_size axis_size right_size : Z),
        1 <= dims s ->
        0 <= k < dims s ->
        result (DmlScanKernel.collapse s k)
        = Ok [1; left_size; axis_size; right_size] ->
        left_size * axis_size * right_size = total_elements s).
Proof.
  intros H.
  assert (Hbad : 1 * 1 * 0 = total_elements [1; 65536; 65536]).
  { apply (H [1; 65536; 65536] 0 1 1 0).
    - solve_range.
    - solve_range.
    - vm_compute. reflexivity. }
  vm_compute in Hbad. discriminate.
Qed.

(** C10. The three sizes are kept in 32-bit signed [int]s, while a
    non-negative axis is stored as it is at the width of the index type: at
    a valid axis the collapse yields the true products reduced to 32 bits,
    which differ from the true values as soon as those exceed 2^31 - 1, and
    the element count is preserved modulo 2^32. *)
Theorem C10_collapsed_sizes_wrap_to_32_bits (s : TensorShape) (k : Z) :
  dims s <= INT_MAX ->
  0 <= k < dims s ->
  result (DmlScanKernel.collapse s k)
  = Ok [1;
        to_int (spec_left_size s k);
        to_int (spec_axis_size s k);
        to_int (spec_right_size s k)]
  /\ (fits_int (to_int (spec_left_size s k))
      /\ fits_int (to_int (spec_axis_size s k))
      /\ fits_int (to_int (spec_right_size s k)))
  /\ (INT_MAX < spec_left_size s k ->
      to_int (spec_left_size s k) <> spec_left_size s k)
  /\ (INT_MAX < spec_axis_size s k ->
      to_int (spec_axis_size s k) <> spec_axis_size s k)
  /\ (INT_MAX < spec_right_size s k ->
      to_int (spec_right_size s k) <> spec_right_size s k)
  /\ (to_int (spec_left_size s k) * to_int (spec_axis_size s k)
      * to_int (spec_right_size s k)) mod 2 ^ 32
     = total_elements s mod 2 ^ 32
  /\ (forall a, 0 <= a -> ScanInitHelper.resolve int64 (dims s) a = a).
Proof.
  intros Hdims Hk.
  split; [now rewrite (collapse_valid_axis s k Hdims Hk)|].
  split; [repeat split; apply to_int_range|].
  split; [apply to_int_exceeds|].
  split; [apply to_int_exceeds|].
  split; [apply to_int_exceeds|].
  split.
  - rewrite (total_elements_spec_split s k Hk). apply to_int_mul3_eqm.
  - intros a Ha. unfold ScanInitHelper.resolve.
    destruct (Z.ltb_spec a 0); [lia|reflexivity].
Qed.

Lemma C10_witness :
  result (DmlScanKernel.collapse [65536; 65536; 7] 2) = Ok [1; 0; 7; 1].
Proof.
  apply (C10_collapsed_sizes_wrap_to_32_bits [65536; 65536; 7] 2);
    solve_range.
Defined.

(** ** Output shape *)

(** C7. An invocation of a registered Cumsum or Cumprod kernel that
    completes produces one output whose shape is the shape of the operand,
    whatever the axis and the [reverse] and [exclusive] attributes; inside
    the kernel the output tensor is described with the same collapsed
    dimensions as the input tensor. *)
Theorem C7_scan_preserves_shape
  (op : OpName) (T : Tidx) (dtype : DataType)
  (attr : ScanInitHelper.Attributes) (input tensor_axis : Tensor)
  (output_shapes : list TensorShape) (kernel : DmlScanKernel.t) :
  DmlKernelWrapper_Compute op T dtype attr input tensor_axis
  = Ok (output_shapes, kernel) ->
  output_shapes = [shape input]
  /\ map (fun i => dimensions (desc i)) (outputs (DmlScanKernel.tensors kernel))
     = map (fun i => dimensions (desc i))
         (inputs (DmlScanKernel.tensors kernel)).
Proof.
  unfold DmlKernelWrapper_Compute. intros H.
  destruct (ScanInitHelper.ctor T input tensor_axis attr) as [h| | |];
    simpl in H; try discriminate.
  rewrite kernel_ctor_result in H.
  destruct (result (DmlScanKernel.collapsed_shape (shape input)
                      (ScanInitHelper.GetAxis h))) as [ts| | |];
    simpl in H; try discriminate.
  inversion H. split; reflexivity.
Qed.

Lemma C7_witness :
  exists output_shapes kernel,
    DmlKernelWrapper_Compute Cumprod int64 DT_HALF
      (ScanInitHelper.mkAttributes true true)
      (mkTensor [2; 3; 4] (repeat 1 24)) (scalar_tensor (-2))
    = Ok (output_shapes, kernel)
    /\ output_shapes = [[2; 3; 4]].
Proof.
  destruct (DmlKernelWrapper_Compute Cumprod int64 DT_HALF
              (ScanInitHelper.mkAttributes true true)
              (mkTensor [2; 3; 4] (repeat 1 24)) (scalar_tensor (-2)))
    as [[output_shapes kernel]| | |] eqn:E;
    try (vm_compute in E; discriminate).
  exists output_shapes, kernel. split; [reflexivity|].
  exact (proj1 (C7_scan_preserves_shape _ _ _ _ _ _ _ _ E)).
Defined.

(** * Further properties of the code *)

(** ** The axes the helper accepts *)

(** X1. A scalar axis [a] is accepted exactly when [-R <= a < R], the range
    the failure message announces, and the axis stored is then [a mod R]. *)
Theorem X1_accepted_axes_are_minus_R_to_R
  (T : Tidx) (input : Tensor) (attr : ScanInitHelper.Attributes) (a : Z) :
  dims (shape input) <= INT_MAX ->
  Tidx_range T a ->
  ((exists h, ScanInitHelper.ctor T input (scalar_tensor a) attr = Ok h)
   <-> - dims (shape input) <= a < dims (shape input))
  /\ (forall h,
        ScanInitHelper.ctor T input (scalar_tensor a) attr = Ok h ->
        ScanInitHelper.GetAxis h = a mod dims (shape input))
  /\ (forall st,
        ScanInitHelper.ctor T input (scalar_tensor a) attr = CtxFailure st ->
        error_message st
        = [Text "ScanOp: Expected scan axis in the range [";
           Num (- dims (shape input));
           Text ", ";
           Num (dims (shape input));
           Text "), but got ";
           Num (effective_axis (dims (shape input)) a)]).
Proof.
  intros HR Ha.
  pose proof (dims_nonneg (shape input)) as H0.
  rewrite ctor_scalar_axis, resolve_exact by (lia || assumption).
  set (R := dims (shape input)) in *.
  assert (Hin : 0 <= effective_axis R a < R <-> - R <= a < R).
  { unfold effective_axis. destruct (Z.ltb_spec a 0); lia. }
  destruct (FastBoundsCheck (effective_axis R a) R) eqn:E.
  - apply FastBoundsCheck_true in E. split; [|split].
    + split; [intros _; now apply Hin|eauto].
    + intros h Hh. inversion Hh. simpl.
      unfold effective_axis in *. destruct (Z.ltb_spec a 0).
      * apply Z.mod_unique with (q := -1); lia.
      * symmetry. apply Z.mod_small. lia.
    + discriminate.
  - apply FastBoundsCheck_false in E. split; [|split].
    + split; [intros [h Hh]; discriminate|]. intros Hr.
      now apply Hin in Hr.
    + discriminate.
    + intros st Hst. inversion Hst. simpl. unfold R.
      rewrite to_int_small; [reflexivity|].
      unfold fits_int, INT_MIN, INT_MAX in *. lia.
Qed.

Lemma X1_witness :
  (exists h,
      ScanInitHelper.ctor int32 (mkTensor [2; 3; 4] (repeat 0 24))
        (scalar_tensor (-3)) (ScanInitHelper.mkAttributes false false) = Ok h)
  <-> - 3 <= - 3 < 3.
Proof.
  apply (X1_accepted_axes_are_minus_R_to_R int32
           (mkTensor [2; 3; 4] (repeat 0 24))
           (ScanInitHelper.mkAttributes false false) (-3)); solve_range.
Defined.

(** X2. A non-negative axis [a] and its negative spelling [a - R] give the
    same helper, whose axis is [a]. *)
Theorem X2_negative_axis_is_an_alias
  (T : Tidx) (input : Tensor) (attr : ScanInitHelper.Attributes) (a : Z) :
  dims (shape input) <= INT_MAX ->
  0 <= a < dims (shape input) ->
  ScanInitHelper.ctor T input (scalar_tensor a) attr
  = Ok (ScanInitHelper.mk attr a)
  /\ ScanInitHelper.ctor T input (scalar_tensor (a - dims (shape input))) attr
     = Ok (ScanInitHelper.mk attr a).
Proof.
  intros HR Ha.
  split; rewrite ctor_scalar_axis, resolve_exact.
  - rewrite effective_axis_nonneg by lia.
    now rewrite (proj2 (FastBoundsCheck_true _ _)) by lia.
  - lia.
  - apply Tidx_range_of_int. unfold fits_int, INT_MIN, INT_MAX in *. lia.
  - rewrite effective_axis_neg by lia.
    replace (dims (shape input) + (a - dims (shape input))) with a by lia.
    now rewrite (proj2 (FastBoundsCheck_true _ _)) by lia.
  - lia.
  - apply Tidx_range_of_int. unfold fits_int, INT_MIN, INT_MAX in *. lia.
Qed.

Lemma X2_witness :
  ScanInitHelper.ctor int64 (mkTensor [2; 3; 4] (repeat 0 24))
    (scalar_tensor 1) (ScanInitHelper.mkAttributes false false)
  = Ok (ScanInitHelper.mk (ScanInitHelper.mkAttributes false false) 1)
  /\ ScanInitHelper.ctor int64 (mkTensor [2; 3; 4] (repeat 0 24))
       (scalar_tensor (-2)) (ScanInitHelper.mkAttributes false false)
     = Ok (ScanInitHelper.mk (ScanInitHelper.mkAttributes false false) 1).
Proof.
  apply (X2_negative_axis_is_an_alias int64
           (mkTensor [2; 3; 4] (repeat 0 24))
           (ScanInitHelper.mkAttributes false false) 1); solve_range.
Defined.

(** X3. For an axis tensor whose value fits 32 bits, the helper built with
    [Tidx = int32] and the one built with [Tidx = int64] have the same
    outcome, failures included. *)
Theorem X3_index_width_does_not_matter
  (input tensor_axis : Tensor) (attr : ScanInitHelper.Attributes) :
  dims (shape input) <= INT_MAX ->
  (forall a, scalar tensor_axis = Ok a -> fits_int a) ->
  ScanInitHelper.ctor int32 input tensor_axis attr
  = ScanInitHelper.ctor int64 input tensor_axis attr.
Proof.
  intros HR Hfit.
  pose proof (dims_nonneg (shape input)) as H0.
  unfold ScanInitHelper.ctor.
  destruct (IsScalar (shape tensor_axis)); simpl; [|reflexivity].
  destruct (scalar tensor_axis) as [a| | |]; simpl; try reflexivity.
  specialize (Hfit a eq_refl).
  now rewrite !resolve_exact by (lia || now apply Tidx_range_of_int).
Qed.

Lemma X3_witness :
  ScanInitHelper.ctor int32 (mkTensor [2; 3; 4] (repeat 0 24))
    (scalar_tensor (-7)) (ScanInitHelper.mkAttributes false false)
  = ScanInitHelper.ctor int64 (mkTensor [2; 3; 4] (repeat 0 24))
      (scalar_tensor (-7)) (ScanInitHelper.mkAttributes false false).
Proof.
  apply (X3_index_width_does_not_matter (mkTensor [2; 3; 4] (repeat 0 24))
           (scalar_tensor (-7)) (ScanInitHelper.mkAttributes false false)).
  - solve_range.
  - intros a Ha. inversion Ha. solve_range.
Defined.

(** X4. Whatever the inputs, a status the helper reports is an
    InvalidArgument one. *)
Theorem X4_helper_reports_only_invalid_argument
  (T : Tidx) (input tensor_axis : Tensor) (attr : ScanInitHelper.Attributes)
  (st : Status) :
  ScanInitHelper.ctor T input tensor_axis attr = CtxFailure st ->
  code st = INVALID_ARGUMENT.
Proof.
  unfold ScanInitHelper.ctor.
  destruct (IsScalar (shape tensor_axis)); simpl.
  - destruct (scalar tensor_axis) as [a|st'| |] eqn:E; simpl;
      try discriminate.
    + destruct (FastBoundsCheck _ _); simpl; [discriminate|].
      intros H. now inversion H.
    + unfold scalar in E.
      destruct (shape tensor_axis); [|discriminate].
      destruct (flat tensor_axis) as [|v [|w vs]]; discriminate.
  - intros H. now inversion H.
Qed.

Lemma X4_witness :
  code (axis_range_error (mkTensor [2; 3] (repeat 0 6)) 9) = INVALID_ARGUMENT.
Proof.
  apply (X4_helper_reports_only_invalid_argument int32
           (mkTensor [2; 3] (repeat 0 6)) (scalar_tensor 9)
           (ScanInitHelper.mkAttributes false false)).
  reflexivity.
Defined.

(** ** The kernel constructor *)

(** X6. A kernel that the constructor builds, for whatever shape and
    axis, supports in-place execution and has exactly one input and one
    output tensor, both with kernel index 0 and the same four dimensions
    [[1, l, a, r]] with [l], [a], [r] between 0 and 2^31 - 1; the input
    carries the input data type and the output the output data type. *)
Theorem X6_built_kernel_is_four_dimensional
  (F : ScanFunctor) (it ot : DataType) (s : TensorShape)
  (h : ScanInitHelper.t) (kernel : DmlScanKernel.t) :
  result (DmlScanKernel.ctor F it ot s h) = Ok kernel ->
  exists l a r,
    0 <= l <= INT_MAX /\ 0 <= a <= INT_MAX /\ 0 <= r <= INT_MAX
    /\ inputs (DmlScanKernel.tensors kernel)
       = [mkDmlTensorInfo 0 (mkDmlTensorDesc it [1; l; a; r] [1; l; a; r])]
    /\ outputs (DmlScanKernel.tensors kernel)
       = [mkDmlTensorInfo 0 (mkDmlTensorDesc ot [1; l; a; r] [1; l; a; r])]
    /\ supports_in_place_execution (DmlScanKernel.tensors kernel) = true.
Proof.
  rewrite kernel_ctor_result.
  destruct (result (DmlScanKernel.collapsed_shape s (ScanInitHelper.GetAxis h)))
    as [ts| | |] eqn:E; try discriminate.
  intros H. inversion H. subst kernel.
  apply collapsed_shape_ok_inv in E as (_ & l & a & r & -> & Hl & Ha & Hr).
  exists l, a, r. repeat (split; [assumption|]).
  repeat split.
Qed.

Lemma X6_witness :
  exists l a r,
    0 <= l <= INT_MAX /\ 0 <= a <= INT_MAX /\ 0 <= r <= INT_MAX
    /\ inputs
         (DmlScanKernel.tensors
            (kernel_of_shape CumsumFunctor DT_HALF DT_HALF
               (ScanInitHelper.mk (ScanInitHelper.mkAttributes false false) 0)
               [1; 1; 2; 12]))
       = [mkDmlTensorInfo 0
            (mkDmlTensorDesc DT_HALF [1; l; a; r] [1; l; a; r])]
    /\ outputs
         (DmlScanKernel.tensors
            (kernel_of_shape CumsumFunctor DT_HALF DT_HALF
               (ScanInitHelper.mk (ScanInitHelper.mkAttributes false false) 0)
               [1; 1; 2; 12]))
       = [mkDmlTensorInfo 0
            (mkDmlTensorDesc DT_HALF [1; l; a; r] [1; l; a; r])]
    /\ supports_in_place_execution
         (DmlScanKernel.tensors
            (kernel_of_shape CumsumFunctor DT_HALF DT_HALF
               (ScanInitHelper.mk (ScanInitHelper.mkAttributes false false) 0)
               [1; 1; 2; 12]))
       = true.
Proof.
  apply (X6_built_kernel_is_four_dimensional CumsumFunctor DT_HALF DT_HALF
           [2; 3; 4]
           (ScanInitHelper.mk (ScanInitHelper.mkAttributes false false) 0)).
  vm_compute. reflexivity.
Defined.

(** X7. At a valid axis the collapse reads every dimension of the shape
    exactly once: the indices it passes to [dim_size] are a permutation of
    [0, 1, ..., R-1]. *)
Theorem X7_every_dimension_is_read_once (s : TensorShape) (k : Z) :
  dims s <= INT_MAX ->
  0 <= k < dims s ->
  Permutation (accessed (DmlScanKernel.collapse s k))
    (index_range 0 (length s)).
Proof.
  intros Hdims Hk.
  rewrite (collapse_valid_axis s k Hdims Hk). simpl accessed.
  assert (Hn : (Z.to_nat k < length s)%nat) by (unfold dims in Hk; lia).
  replace (length s) with (Z.to_nat k + S (length s - S (Z.to_nat k)))%nat
    at 2 by lia.
  unfold index_range. rewrite seq_app, map_app. simpl seq. simpl map.
  rewrite Z2Nat.id by lia.
  apply Permutation_app_head.
  apply Permutation_sym, Permutation_cons_append.
Qed.

Lemma X7_witness :
  Permutation (accessed (DmlScanKernel.collapse [2; 3; 4] 1))
    (index_range 0 3).
Proof.
  apply (X7_every_dimension_is_read_once [2; 3; 4] 1); solve_range.
Defined.

(** X8. The collapsed shape is a fixed point: collapsing it again along
    the axis the kernel hands to DirectML ([dml_axis = 2]) gives it back. *)
Theorem X8_collapse_is_idempotent_at_dml_axis
  (s : TensorShape) (k : Z) (ts : TensorShape) :
  result (DmlScanKernel.collapse s k) = Ok ts ->
  result (DmlScanKernel.collapse ts DmlScanKernel.dml_axis) = Ok ts.
Proof.
  intros H.
  apply collapse_ok_inv in H as (_ & l & a & r & -> & Hl & Ha & Hr).
  rewrite collapse_valid_axis
    by (unfold DmlScanKernel.dml_axis; solve_range).
  simpl result.
  change (spec_left_size [1; l; a; r] DmlScanKernel.dml_axis)
    with (1 * (l * 1)).
  change (spec_axis_size [1; l; a; r] DmlScanKernel.dml_axis) with a.
  change (spec_right_size [1; l; a; r] DmlScanKernel.dml_axis) with (r * 1).
  rewrite Z.mul_1_l, !Z.mul_1_r, !to_int_small by assumption.
  reflexivity.
Qed.

Lemma X8_witness :
  result (DmlScanKernel.collapse [1; 6; 4; 5] 2) = Ok [1; 6; 4; 5].
Proof.
  apply (X8_collapse_is_idempotent_at_dml_axis [2; 3; 4; 5] 2).
  vm_compute. reflexivity.
Defined.

(** ** Shapes whose element count fits 32 bits *)

Lemma Forall_firstn_skipn {A : Type} (P : A -> Prop) (l : list A) :
  Forall P l -> forall n, Forall P (firstn n l) /\ Forall P (skipn n l).
Proof.
  induction 1 as [|x l Hx Hl IH]; intros [|n]; simpl; auto.
  destruct (IH n). auto.
Qed.

Lemma product_ge_1 (l : list Z) : Forall (fun d => 1 <= d) l -> 1 <= product l.
Proof.
  induction 1 as [|x l Hx Hl IH]; simpl; [lia|nia].
Qed.

(** X9. When every dimension is at least 1 and the element count is at
    most 2^31 - 1, no size wraps: the collapse at a valid axis yields the
    true products and they multiply to the element count. *)
Theorem X9_exact_when_element_count_fits (s : TensorShape) (k : Z) :
  dims s <= INT_MAX ->
  0 <= k < dims s ->
  Forall (fun d => 1 <= d) s ->
  total_elements s <= INT_MAX ->
  result (DmlScanKernel.collapse s k)
  = Ok [1; spec_left_size s k; spec_axis_size s k; spec_right_size s k]
  /\ spec_left_size s k * spec_axis_size s k * spec_right_size s k
     = total_elements s.
Proof.
  intros Hdims Hk Hpos Htotal.
  pose proof (total_elements_spec_split s k Hk) as Hsplit.
  destruct (Forall_firstn_skipn _ s Hpos (Z.to_nat k)) as [Hfirst _].
  destruct (Forall_firstn_skipn _ s Hpos (S (Z.to_nat k))) as [_ Hskip].
  apply product_ge_1 in Hfirst, Hskip.
  assert (Haxis : 1 <= spec_axis_size s k).
  { unfold spec_axis_size. rewrite Forall_forall in Hpos.
    apply Hpos, nth_In. unfold dims in Hk. lia. }
  fold (spec_left_size s k) in Hfirst. fold (spec_right_size s k) in Hskip.
  split; [|lia].
  rewrite (collapse_valid_axis s k Hdims Hk). simpl result.
  unfold INT_MAX in Htotal.
  rewrite !to_int_small; [reflexivity| | |];
    unfold fits_int, INT_MIN, INT_MAX; nia.
Qed.

Lemma X9_witness :
  result (DmlScanKernel.collapse [1024; 1024; 2047] 1)
  = Ok [1; 1024; 1024; 2047].
Proof.
  apply (X9_exact_when_element_count_fits [1024; 1024; 2047] 1).
  - solve_range.
  - solve_range.
  - repeat constructor; lia.
  - solve_range.
Defined.

(** ** From the attributes to the graph *)

(** X10. When the attributes are read from the context, the helper
    accepts the axis and the kernel constructor completes, the graph of the
    kernel is the cumulative sum (for [CumsumFunctor]) or product (for
    [CumprodFunctor]) of input 0 along axis 2, running in decreasing
    direction exactly when the attribute ["reverse"] is set, with the
    attribute ["exclusive"] as its exclusive flag; dimension 2 of the
    tensor it scans is the size of the requested axis, as a 32-bit [int]. *)
Theorem X10_attributes_reach_the_graph
  (ctx : OpKernelConstruction) (T : Tidx) (F : ScanFunctor) (it ot : DataType)
  (input tensor_axis : Tensor) (attr : ScanInitHelper.Attributes)
  (h : ScanInitHelper.t) (kernel : DmlScanKernel.t) :
  dims (shape input) <= INT_MAX ->
  Attributes_ctor ctx = Ok attr ->
  ScanInitHelper.ctor T input tensor_axis attr = Ok h ->
  result (DmlScanKernel.ctor F it ot (shape input) h) = Ok kernel ->
  exists r e ts,
    GetAttr ctx "reverse" = AttrOk r
    /\ GetAttr ctx "exclusive" = AttrOk e
    /\ DmlScanKernel.compiled_op kernel
       = (match F with
          | CumsumFunctor => CumulativeSummation
          | CumprodFunctor => CumulativeProduct
          end)
           (InputTensor 0 (mkDmlTensorDesc it ts ts)) 2
           (if r then DML_AXIS_DIRECTION_DECREASING
            else DML_AXIS_DIRECTION_INCREASING)
           e
    /\ length ts = 4%nat
    /\ nth 2 ts 0
       = to_int (spec_axis_size (shape input) (ScanInitHelper.GetAxis h)).
Proof.
  intros Hdims Hattr Hctor Hkernel.
  unfold Attributes_ctor in Hattr.
  destruct (GetAttr ctx "reverse") as [r|st]; simpl in Hattr;
    [|discriminate].
  destruct (GetAttr ctx "exclusive") as [e|st]; simpl in Hattr;
    [|discriminate].
  inversion Hattr. subst attr.
  apply ctor_ok_inv in Hctor as (a & _ & Hh & Hb).
  apply FastBoundsCheck_true in Hb.
  change (ScanInitHelper.axis_ h) with (ScanInitHelper.GetAxis h) in Hb.
  rewrite kernel_ctor_result in Hkernel.
  destruct (result (DmlScanKernel.collapsed_shape (shape input)
                      (ScanInitHelper.GetAxis h))) as [ts| | |] eqn:E;
    try discriminate.
  inversion Hkernel. subst kernel.
  apply collapsed_shape_ok_inv in E as (Hints & _).
  rewrite (collapse_valid_axis _ _ Hdims Hb) in Hints.
  simpl in Hints. inversion Hints. subst ts.
  exists r, e. eexists.
  do 2 (split; [reflexivity|]).
  split; [subst h; destruct F; reflexivity|].
  split; reflexivity.
Qed.

Lemma X10_witness :
  exists r e ts,
    AttrOk true = AttrOk r
    /\ AttrOk false = AttrOk e
    /\ DmlScanKernel.compiled_op
         (kernel_of_shape CumprodFunctor DT_FLOAT DT_FLOAT
            (ScanInitHelper.mk (ScanInitHelper.mkAttributes true false) 1)
            [1; 2; 3; 4])
       = CumulativeProduct (InputTensor 0 (mkDmlTensorDesc DT_FLOAT ts ts)) 2
           (if r then DML_AXIS_DIRECTION_DECREASING
            else DML_AXIS_DIRECTION_INCREASING)
           e
    /\ length ts = 4%nat
    /\ nth 2 ts 0 = 3.
Proof.
  apply (X10_attributes_reach_the_graph
           (mkOpKernelConstruction
              (fun name => if String.eqb name "reverse" then AttrOk true
                           else AttrOk false))
           int32 CumprodFunctor DT_FLOAT DT_FLOAT
           (mkTensor [2; 3; 4] (repeat 0 24)) (scalar_tensor (-2))
           (ScanInitHelper.mkAttributes true false)
           (ScanInitHelper.mk (ScanInitHelper.mkAttributes true false) 1)).
  - solve_range.
  - reflexivity.
  - reflexivity.
  - vm_compute. reflexivity.
Defined.

(** ** The registrations *)

(** X11. Sixteen kernels are registered, and every combination of op name
    (Cumsum, Cumprod), element type (half, float, int32, int64) and index
    type (int32, int64) matches exactly one of them; that kernel reads the
    axis at the index type of the constraint, uses the summation functor
    for Cumsum and the product functor for Cumprod, and keeps ["axis"] in
    host memory. *)
Theorem X11_one_kernel_per_combination
  (op : OpName) (T : DataType) (idx : Tidx) :
  length registrations = 16%nat
  /\ exists r,
       matching op T idx = [r]
       /\ reg_kernel_Tidx r = idx
       /\ reg_kernel_functor r
          = match op with
            | Cumsum => CumsumFunctor
            | Cumprod => CumprodFunctor
            end
       /\ reg_HostMemory r = ["axis"].
Proof.
  split; [reflexivity|].
  destruct op, T, idx; eexists; (split; [reflexivity|]); repeat split.
Qed.
